(** * arduino_data_logger: the sensor driver and the serial framing protocol

    A shallow embedding of [data.h], [fast_mpu6050.h] and [send.h] of the
    data acquisition sketch, and the properties of the burst read, the
    reset poll loop and the tagged frames that the firmware relies on.

    Conventions.
    - Bytes and C integers are [Z]; every conversion to a fixed-width type is
      written out ([Int.uint8], [Int.int16], ...).  The target is the AVR
      (Arduino Nano): [int] is 16 bits wide, memory is little-endian and
      every type has alignment 1.
    - The firmware runs in a [World]: the bytes written to the serial
      transport so far, the I2C receive buffer, a log of the bus calls and
      the simulated device.  Code is a function of a step budget and a world;
      a loop that is still running when the budget is used up yields
      [Spinning], with the world it has reached.
    - The Arduino core ([Serial], [Print], [Wire]) is not part of the
      sketch.  It is modelled here after its documented behaviour:
      [Print::printNumber] renders a number with the digits 0-9 and A-Z and
      without padding, [Wire.read] returns -1 on an empty buffer, and
      [Wire.requestFrom] replaces the receive buffer by the device's
      answer. *)

From Stdlib Require Import ZArith Lia Bool String Ascii List.
Import ListNotations.
Open Scope Z_scope.

(** ** Fixed-width integers *)

Module Int.

Definition uint8 (z : Z) : Z := z mod 256.
Definition uint16 (z : Z) : Z := z mod 65536.
Definition uint32 (z : Z) : Z := z mod 4294967296.
Definition int16 (z : Z) : Z := (z + 32768) mod 65536 - 32768.

(** [int] arithmetic of the AVR: 16 bits, two's complement. *)
Definition shl (a k : Z) : Z := int16 (Z.shiftl a k).
Definition or (a b : Z) : Z := Z.lor a b.
Definition and (a b : Z) : Z := Z.land a b.

Definition is_uint8 (z : Z) : Prop := 0 <= z < 256.
Definition is_uint16 (z : Z) : Prop := 0 <= z < 65536.
Definition is_uint32 (z : Z) : Prop := 0 <= z < 4294967296.
Definition is_int16 (z : Z) : Prop := -32768 <= z < 32768.

End Int.

(** ** data.h *)

Record Data := mkData {
  micros : Z;      (* uint32_t *)
  analog : Z;      (* uint16_t *)
  btn_0 : Z;       (* uint8_t *)
  btn_1 : Z;       (* uint8_t *)
  lin_acc_x : Z;   (* int16_t *)
  lin_acc_y : Z;
  lin_acc_z : Z;
  rot_vel_x : Z;   (* int16_t *)
  rot_vel_y : Z;
  rot_vel_z : Z
}.

(** The values a [struct Data] can hold. *)
Record wf_Data (d : Data) : Prop := {
  wf_micros : Int.is_uint32 (micros d);
  wf_analog : Int.is_uint16 (analog d);
  wf_btn_0 : Int.is_uint8 (btn_0 d);
  wf_btn_1 : Int.is_uint8 (btn_1 d);
  wf_lin_acc_x : Int.is_int16 (lin_acc_x d);
  wf_lin_acc_y : Int.is_int16 (lin_acc_y d);
  wf_lin_acc_z : Int.is_int16 (lin_acc_z d);
  wf_rot_vel_x : Int.is_int16 (rot_vel_x d);
  wf_rot_vel_y : Int.is_int16 (rot_vel_y d);
  wf_rot_vel_z : Int.is_int16 (rot_vel_z d)
}.

(** The object representation of an integer of [n] bytes, least significant
    byte first; a negative value gives its two's complement. *)
Fixpoint le_bytes (n : nat) (v : Z) : list Z :=
  match n with
  | O => []
  | S n' => v mod 256 :: le_bytes n' (v / 256)
  end.

(** Field widths of [struct Data], in declaration order. *)
Definition Data_field_sizes : list nat := [4; 2; 1; 1; 2; 2; 2; 2; 2; 2]%nat.

(** [sizeof(struct Data)]: with alignment 1 there is no padding. *)
Definition sizeof_Data : nat := fold_right Nat.add O Data_field_sizes.

(** The bytes at [(uint8_t* )&dat]. *)
Definition bytes_of_Data (d : Data) : list Z :=
  le_bytes 4 (micros d) ++ le_bytes 2 (analog d) ++
  le_bytes 1 (btn_0 d) ++ le_bytes 1 (btn_1 d) ++
  le_bytes 2 (lin_acc_x d) ++ le_bytes 2 (lin_acc_y d) ++ le_bytes 2 (lin_acc_z d) ++
  le_bytes 2 (rot_vel_x d) ++ le_bytes 2 (rot_vel_y d) ++ le_bytes 2 (rot_vel_z d).

(** ** The world the firmware runs in *)

Inductive BusEvent : Type :=
| EvBegin (addr : Z)
| EvSetClock (hz : Z)
| EvBeginTransmission (addr : Z)
| EvWrite (b : Z)
| EvEndTransmission (stop : bool)
| EvRequestFrom (addr : Z) (quantity : nat)
| EvDelay (ms : Z).

Record World := mkWorld {
  serial_tx : list Z;          (* bytes written to the transport, oldest first *)
  wire_rx : list Z;            (* unread part of the I2C receive buffer *)
  bus_log : list BusEvent;     (* bus calls and delays, oldest first *)
  wire_reqs : nat;             (* number of requestFrom calls so far *)
  wire_dev : nat -> list Z     (* the device: its answer to the i-th request *)
}.

Definition emit (bs : list Z) (w : World) : World :=
  mkWorld (serial_tx w ++ bs) (wire_rx w) (bus_log w) (wire_reqs w) (wire_dev w).

Definition log_event (e : BusEvent) (w : World) : World :=
  mkWorld (serial_tx w) (wire_rx w) (bus_log w ++ [e]) (wire_reqs w) (wire_dev w).

Inductive Outcome (A : Type) : Type :=
| Done (a : A) (w : World)
| Spinning (w : World).
Arguments Done {A} a w.
Arguments Spinning {A} w.

Definition world_of {A : Type} (o : Outcome A) : World :=
  match o with Done _ w => w | Spinning w => w end.

(** A computation: the step budget bounds the iterations of each loop. *)
Definition M (A : Type) : Type := nat -> World -> Outcome A.

Definition ret {A : Type} (a : A) : M A := fun _ w => Done a w.

Definition bind {A B : Type} (m : M A) (k : A -> M B) : M B :=
  fun fuel w =>
    match m fuel w with
    | Done a w' => k a fuel w'
    | Spinning w' => Spinning w'
    end.

Declare Scope fw_scope.
Delimit Scope fw_scope with fw.
Notation "x <- m ;; k" := (bind m (fun x => k))
  (at level 61, m at next level, right associativity) : fw_scope.
Notation "m ;; k" := (bind m (fun _ => k))
  (at level 61, right associativity) : fw_scope.
Open Scope fw_scope.

(** [while (cond) body], over the loop's local state [s]. *)
Fixpoint while_loop {S : Type} (cond : S -> bool) (body : S -> M S)
    (s : S) (fuel : nat) (w : World) : Outcome S :=
  if cond s then
    match fuel with
    | O => Spinning w
    | Datatypes.S fuel' =>
        match body s fuel' w with
        | Done s' w' => while_loop cond body s' fuel' w'
        | Spinning w' => Spinning w'
        end
    end
  else Done s w.

(** ** Serial and Print of the Arduino core *)

Definition bytes_of_string (s : string) : list Z :=
  map (fun c => Z.of_N (N_of_ascii c)) (list_ascii_of_string s).

(** The bytes of a C string: those before the first NUL. *)
Fixpoint c_str (bs : list Z) : list Z :=
  match bs with
  | [] => []
  | b :: bs' => if b =? 0 then [] else b :: c_str bs'
  end.

(** [Serial.write(uint8_t)]; the overloads for [int] and [char] convert
    to [uint8_t] first. *)
Definition Serial_write (b : Z) : M unit :=
  fun _ w => Done tt (emit [Int.uint8 b] w).

(** [Serial.write(const char* )] *)
Definition Serial_write_str (s : string) : M unit :=
  fun _ w => Done tt (emit (c_str (bytes_of_string s)) w).

(** [Serial.write(const uint8_t*, size_t)] *)
Definition Serial_write_buf (buf : list Z) (size : nat) : M unit :=
  fun _ w => Done tt (emit (firstn size buf) w).

(** [Print::printNumber(unsigned long n, uint8_t base)]: the do-while loop
    that fills a buffer of [8 * sizeof(long)] digits from its end. *)
Fixpoint printNumber_loop (fuel : nat) (n base : Z) (str : list Z) : list Z :=
  match fuel with
  | O => str
  | S fuel' =>
      let c := n mod base in
      let n' := n / base in
      let str' := (if c <? 10 then c + 48 else c + 65 - 10) :: str in
      if n' =? 0 then str' else printNumber_loop fuel' n' base str'
  end.

Definition printNumber (n base : Z) : list Z :=
  printNumber_loop 32 n (if base <? 2 then 10 else base) [].

Definition DEC : Z := 10.
Definition HEX : Z := 16.

(** [Print::print(unsigned long n, int base)] *)
Definition print_unsigned (n base : Z) : list Z :=
  if base =? 0 then [Int.uint8 n] else printNumber n base.

(** [Print::print(long n, int base)] *)
Definition print_signed (n base : Z) : list Z :=
  if base =? 0 then [Int.uint8 n]
  else if base =? 10 then
    if n <? 0 then 45 :: printNumber (Int.uint32 (- n)) 10
    else printNumber n 10
  else printNumber (Int.uint32 n) base.

(** The types [Serial.print(t)] accepts, each with its default rendering. *)
Class Printable (T : Type) := print_text : T -> list Z.

(** [long], and [int] which is converted to it. *)
Inductive c_long : Type := Long (n : Z).
(** [unsigned long], and [unsigned char] and [unsigned int] which are
    converted to it. *)
Inductive c_ulong : Type := ULong (n : Z).

#[export] Instance Printable_string : Printable string :=
  fun s => c_str (bytes_of_string s).
#[export] Instance Printable_char : Printable ascii :=
  fun c => [Z.of_N (N_of_ascii c)].
#[export] Instance Printable_long : Printable c_long :=
  fun '(Long n) => print_signed n DEC.
#[export] Instance Printable_ulong : Printable c_ulong :=
  fun '(ULong n) => print_unsigned n DEC.

(** One argument of a variadic call, with the overload chosen for it. *)
Record Arg : Type := mkArg {
  arg_type : Type;
  arg_printable : Printable arg_type;
  arg_value : arg_type
}.
Arguments mkArg {arg_type arg_printable} arg_value.

Definition text_of (a : Arg) : list Z :=
  @print_text (arg_type a) (arg_printable a) (arg_value a).

(** [Serial.print(t)] *)
Definition Serial_print (t : Arg) : M unit :=
  fun _ w => Done tt (emit (text_of t) w).

(** [Serial.print(n, base)] for an [unsigned char] *)
Definition Serial_print_base (n base : Z) : M unit :=
  fun _ w => Done tt (emit (print_unsigned n base) w).

(** ** send.h *)

Definition BYTE_MESSAGE : Z := 0.
Definition BYTE_DATA_START : Z := 1.
Definition BYTE_DATA_ELEMENT : Z := 2.
Definition BYTE_DATA_END : Z := 3.
Definition BYTE_HEARTBEAT : Z := 250.
Definition BYTE_ERROR : Z := 255.

(** The two overloads of [_VSend]: one argument, and one argument followed
    by a non-empty pack. *)
Definition _VSend1 (t : Arg) : M unit := Serial_print t.

Fixpoint _VSend (t : Arg) (rest : list Arg) : M unit :=
  match rest with
  | [] => _VSend1 t
  | r :: rest' => _VSend1 t ;; _VSend r rest'
  end.

(** [Send(args...)]: the pack is not empty, since [_VSend()] does not
    exist. *)
Definition Send (t : Arg) (rest : list Arg) : M unit :=
  Serial_write BYTE_MESSAGE ;;
  _VSend t rest ;;
  Serial_write 0.

Definition SendLine (t : Arg) (rest : list Arg) : M unit :=
  Serial_write BYTE_MESSAGE ;;
  _VSend t rest ;;
  Serial_write_str (String (ascii_of_nat 10) EmptyString) ;;
  Serial_write 0.

Definition SendErrorCode (error_code : Z) : M unit :=
  Serial_write BYTE_MESSAGE ;;
  Serial_print (mkArg "  Error: 0x"%string) ;;
  Serial_print_base error_code HEX ;;
  Serial_write 10 ;;
  Serial_write 0.

Definition SendDataStart : M unit := Serial_write BYTE_DATA_START.

Definition SendData (dat : Data) : M unit :=
  Serial_write BYTE_DATA_ELEMENT ;;
  Serial_write_buf (bytes_of_Data dat) sizeof_Data.

Definition SendDataEnd : M unit := Serial_write BYTE_DATA_END.

Definition SendHeartbeat : M unit := Serial_write BYTE_HEARTBEAT.

(** The [ERROR] macro: [while (1) ;] is a loop with an empty body. *)
Definition ERROR : M unit :=
  SendLine (mkArg "---ERROR---"%string) [] ;;
  Serial_write BYTE_ERROR ;;
  while_loop (fun _ : unit => true) (fun _ => ret tt) tt.

(** ** Wire (I2C) of the Arduino core, and [delay] *)

Definition Wire_begin (addr : Z) : M unit :=
  fun _ w => Done tt (log_event (EvBegin addr) w).

Definition Wire_setClock (hz : Z) : M unit :=
  fun _ w => Done tt (log_event (EvSetClock hz) w).

Definition Wire_beginTransmission (addr : Z) : M unit :=
  fun _ w => Done tt (log_event (EvBeginTransmission addr) w).

Definition Wire_write (b : Z) : M unit :=
  fun _ w => Done tt (log_event (EvWrite b) w).

Definition Wire_endTransmission (stop : bool) : M unit :=
  fun _ w => Done tt (log_event (EvEndTransmission stop) w).

(** [Wire.requestFrom(addr, quantity)]: the receive buffer is replaced by
    what the device sent, at most [quantity] bytes. *)
Definition Wire_requestFrom (addr : Z) (quantity : nat) : M unit :=
  fun _ w =>
    Done tt (mkWorld (serial_tx w)
                     (firstn quantity (wire_dev w (wire_reqs w)))
                     (bus_log w ++ [EvRequestFrom addr quantity])
                     (Datatypes.S (wire_reqs w))
                     (wire_dev w)).

(** [Wire.read()]: the next byte of the receive buffer, or -1. *)
Definition Wire_read : M Z :=
  fun _ w =>
    match wire_rx w with
    | [] => Done (-1) w
    | b :: rx =>
        Done b (mkWorld (serial_tx w) rx (bus_log w) (wire_reqs w) (wire_dev w))
    end.

Definition delay (ms : Z) : M unit :=
  fun _ w => Done tt (log_event (EvDelay ms) w).

(** ** fast_mpu6050.h *)

Definition I2C_CLOCK_HZ : Z := 1000000.
Definition MPU6050_ADDR : Z := 104.               (* 0x68 *)
Definition MPU6050_SIGNAL_PATH_RESET : Z := 104.  (* 0x68 *)
Definition MPU6050_PWR_MGMT_1 : Z := 107.         (* 0x6B *)
Definition MPU6050_DATA_OUT : Z := 59.            (* 0x3B *)

(** One pass of the body of the wait loop; the result is [has_reset]. *)
Definition poll_reset (_ : bool) : M bool :=
  Wire_write MPU6050_PWR_MGMT_1 ;;
  Wire_endTransmission false ;;
  Wire_requestFrom MPU6050_ADDR 1 ;;
  v <- Wire_read ;;
  ret (Int.and v 128 =? 0).

Definition SetupMPU6050 : M unit :=
  Wire_begin MPU6050_ADDR ;;
  Wire_setClock I2C_CLOCK_HZ ;;
  Wire_beginTransmission MPU6050_ADDR ;;
  Wire_write MPU6050_PWR_MGMT_1 ;;
  Wire_write 128 ;;
  Wire_endTransmission false ;;
  _ <- while_loop negb poll_reset false ;;
  delay 100 ;;
  Wire_beginTransmission MPU6050_ADDR ;;
  Wire_write MPU6050_SIGNAL_PATH_RESET ;;
  Wire_write 7 ;;
  Wire_endTransmission false ;;
  delay 100 ;;
  Wire_beginTransmission MPU6050_ADDR ;;
  Wire_write MPU6050_PWR_MGMT_1 ;;
  Wire_write 0 ;;
  Wire_endTransmission true.

(** [(Wire.read() << 8) | Wire.read()] stored into an [int16_t]; the
    operands are read left to right, high byte first, as the comments of
    the source say. *)
Definition read_int16 : M Z :=
  hi <- Wire_read ;;
  lo <- Wire_read ;;
  ret (Int.int16 (Int.or (Int.shl hi 8) lo)).

Definition FillDataMPU6050 (dat : Data) : M Data :=
  Wire_beginTransmission MPU6050_ADDR ;;
  Wire_write MPU6050_DATA_OUT ;;
  Wire_endTransmission false ;;
  Wire_requestFrom MPU6050_ADDR 14 ;;
  ax <- read_int16 ;;
  ay <- read_int16 ;;
  az <- read_int16 ;;
  Wire_read ;; Wire_read ;;
  gx <- read_int16 ;;
  gy <- read_int16 ;;
  gz <- read_int16 ;;
  ret (mkData (micros dat) (analog dat) (btn_0 dat) (btn_1 dat) ax ay az gx gy gz).

(** ** Reference definitions, after the wire contract *)

(** A signed 16-bit big-endian value: high byte first. *)
Definition be16_signed (hi lo : Z) : Z :=
  let u := 256 * hi + lo in
  if u <? 32768 then u else u - 65536.

(** The reset bit (bit 7 of PWR_MGMT_1) as one poll reads it: clear when the
    device answered with a byte whose bit 7 is 0. *)
Definition reads_clear (answer : list Z) : bool :=
  match answer with
  | [] => false
  | b :: _ => negb (Z.testbit b 7)
  end.

(** The value of little-endian bytes. *)
Definition le_value (bs : list Z) : Z :=
  fold_right (fun b acc => b + 256 * acc) 0 bs.

(** Modelled from the spec: the receiver's decoder of a DataElement frame is
    not part of the sketch.  It reads the tag byte 2 and then the record
    "with the same fixed layout": the ten fields in declaration order, each
    of its width, least significant byte first, the motion fields signed. *)
Definition parse_DataElement (frame : list Z) : option Data :=
  match frame with
  | [tag; t0; t1; t2; t3; a0; a1; b0; b1;
     x0; x1; y0; y1; z0; z1; p0; p1; q0; q1; r0; r1] =>
      if tag =? BYTE_DATA_ELEMENT then
        Some (mkData (le_value [t0; t1; t2; t3]) (le_value [a0; a1])
                     (le_value [b0]) (le_value [b1])
                     (Int.int16 (le_value [x0; x1]))
                     (Int.int16 (le_value [y0; y1]))
                     (Int.int16 (le_value [z0; z1]))
                     (Int.int16 (le_value [p0; p1]))
                     (Int.int16 (le_value [q0; q1]))
                     (Int.int16 (le_value [r0; r1])))
      else None
  | _ => None
  end.

(** The frames of the protocol, as byte sequences. *)
Definition Message_frame (text : list Z) (line : bool) : list Z :=
  [0] ++ text ++ (if line then [10] else []) ++ [0].
Definition DataStart_frame : list Z := [1].
Definition DataElement_frame (payload : list Z) : list Z := 2 :: payload.
Definition DataEnd_frame : list Z := [3].
Definition Heartbeat_frame : list Z := [250].
Definition ErrorMarker_frame : list Z := [255].

(** [m] returns and has written exactly [bs] to the transport, whatever the
    world and the budget it started with; nothing else changed. *)
Definition emits (m : M unit) (bs : list Z) : Prop :=
  forall fuel w, m fuel w = Done tt (emit bs w).

(** The bytes a run added to the transport. *)
Definition emitted {A : Type} (m : M A) (fuel : nat) (w : World) : list Z :=
  skipn (List.length (serial_tx w)) (serial_tx (world_of (m fuel w))).

(** A batch: [SendDataStart], one [SendData] per record, [SendDataEnd]. *)
Fixpoint SendAll (ds : list Data) : M unit :=
  match ds with
  | [] => ret tt
  | d :: ds' => SendData d ;; SendAll ds'
  end.

Definition SendBatch (ds : list Data) : M unit :=
  SendDataStart ;; SendAll ds ;; SendDataEnd.

(** The bus calls of the driver, as they appear in the log. *)
Definition reset_events : list BusEvent :=
  [EvBegin 104; EvSetClock 1000000; EvBeginTransmission 104;
   EvWrite 107; EvWrite 128; EvEndTransmission false].
Definition poll_events : list BusEvent :=
  [EvWrite 107; EvEndTransmission false; EvRequestFrom 104 1].
Definition config_events : list BusEvent :=
  [EvDelay 100; EvBeginTransmission 104; EvWrite 104; EvWrite 7;
   EvEndTransmission false; EvDelay 100; EvBeginTransmission 104;
   EvWrite 107; EvWrite 0; EvEndTransmission true].
Definition burst_events : list BusEvent :=
  [EvBeginTransmission 104; EvWrite 59; EvEndTransmission false;
   EvRequestFrom 104 14].

Fixpoint repeat_events (n : nat) (evs : list BusEvent) : list BusEvent :=
  match n with
  | O => []
  | S n' => evs ++ repeat_events n' evs
  end.

(** A world in which nothing has happened yet and the device is silent. *)
Definition idle_world : World := mkWorld [] [] [] 0 (fun _ => []).

(** The digits '0'-'9' and 'A'-'F'. *)
Definition hex_digit (d : Z) : Z := if d <? 10 then 48 + d else 55 + d.

(** A byte as two uppercase hexadecimal digits, zero-padded. *)
Definition hex2 (b : Z) : list Z := [hex_digit (b / 16); hex_digit (b mod 16)].

(** A byte as uppercase hexadecimal digits without a leading zero. *)
Definition hex_min (b : Z) : list Z :=
  if b <? 16 then [hex_digit b] else hex2 b.

Definition error_prefix : list Z := bytes_of_string "  Error: 0x".

(** What the fail-stop path writes: the Message frame with the fixed text
    and a line feed, then the ErrorMarker frame. *)
Definition fail_stop_bytes : list Z :=
  Message_frame (bytes_of_string "---ERROR---") true ++ ErrorMarker_frame.

(** The record of the round-trip test of the specification. *)
Definition sample_record : Data :=
  mkData 123456 512 1 0 100 (-200) 300 (-50) 0 50.

(** The device's answer to the [i]-th poll (counted from 1) of a
    [SetupMPU6050] started in [w]. *)
Definition poll_answer (w : World) (i : nat) : list Z :=
  wire_dev w (wire_reqs w + (i - 1))%nat.

(** A device whose reset bit reads clear from the third poll on, and one
    whose reset bit never reads clear. *)
Definition device_ready_at_3 : World :=
  mkWorld [] [] [] 0 (fun i => if Nat.ltb i 2 then [128] else [0]).
Definition device_never_ready : World :=
  mkWorld [] [] [] 0 (fun _ => [192]).

(** What [FillDataMPU6050] stores for the byte pair at offset [o] of the
    receive buffer: the big-endian value when both bytes arrived, and -1
    when a read found the buffer empty. *)
Definition pair_value (rx : list Z) (o : nat) : Z :=
  match nth_error rx o, nth_error rx (S o) with
  | Some hi, Some lo => be16_signed hi lo
  | _, _ => -1
  end.

(** The value of a string of hexadecimal digits, as a receiver reads an
    error code back. *)
Definition hex_digit_value (c : Z) : Z := if c <? 58 then c - 48 else c - 55.
Definition hex_value (digits : list Z) : Z :=
  fold_left (fun acc c => 16 * acc + hex_digit_value c) digits 0.

(** The arguments of [Send] whose rendering is text: a C string, or an
    integer printed in decimal. *)
Inductive Literal : Type :=
| LitStr (s : string)
| LitLong (n : Z)
| LitULong (n : Z).

Definition arg_of_literal (l : Literal) : Arg :=
  match l with
  | LitStr s => mkArg s
  | LitLong n => mkArg (Long n)
  | LitULong n => mkArg (ULong n)
  end.

(** The string ["\n"]. *)
Definition LF : string := String (ascii_of_nat 10) EmptyString.

(** * Properties *)

(** ** Reasoning about computations that only write to the transport *)

Lemma emit_nil : forall w, emit [] w = w.
Proof.
  intros [tx rx lg rq dev]; unfold emit; simpl.
  now rewrite app_nil_r.
Qed.

Lemma emit_emit : forall a b w, emit b (emit a w) = emit (a ++ b) w.
Proof.
  intros a b w; unfold emit; simpl.
  now rewrite app_assoc.
Qed.

Lemma emits_ret : emits (ret tt) [].
Proof.
  intros fuel w; unfold ret.
  now rewrite emit_nil.
Qed.

Lemma emits_bind : forall (m k : M unit) (a b : list Z),
  emits m a -> emits k b -> emits (m ;; k) (a ++ b).
Proof.
  intros m k a b Hm Hk fuel w; unfold bind.
  now rewrite Hm, Hk, emit_emit.
Qed.

Lemma emits_eq : forall (m : M unit) (a b : list Z),
  emits m a -> a = b -> emits m b.
Proof. now intros m a b H <-. Qed.

Lemma emits_Serial_write : forall b, emits (Serial_write b) [Int.uint8 b].
Proof. now intros b fuel w. Qed.

Lemma emits_Serial_write_str : forall s,
  emits (Serial_write_str s) (c_str (bytes_of_string s)).
Proof. now intros s fuel w. Qed.

Lemma emits_Serial_write_buf : forall buf size,
  emits (Serial_write_buf buf size) (firstn size buf).
Proof. now intros buf size fuel w. Qed.

Lemma emits_Serial_print : forall t, emits (Serial_print t) (text_of t).
Proof. now intros t fuel w. Qed.

Lemma emits_Serial_print_base : forall n base,
  emits (Serial_print_base n base) (print_unsigned n base).
Proof. now intros n base fuel w. Qed.

Lemma emits__VSend : forall rest t,
  emits (_VSend t rest) (concat (map text_of (t :: rest))).
Proof.
  induction rest as [|r rest IH]; intros t.
  - simpl. rewrite app_nil_r. apply emits_Serial_print.
  - change (_VSend t (r :: rest)) with (_VSend1 t ;; _VSend r rest).
    change (concat (map text_of (t :: r :: rest)))
      with (text_of t ++ concat (map text_of (r :: rest))).
    apply emits_bind; [apply emits_Serial_print | apply IH].
Qed.

Lemma emits_emitted : forall (m : M unit) (bs : list Z),
  emits m bs -> forall fuel w, emitted m fuel w = bs.
Proof.
  intros m bs H fuel w; unfold emitted.
  rewrite H; simpl.
  rewrite skipn_app, skipn_all, Nat.sub_diag. reflexivity.
Qed.

Create HintDb emits discriminated.
#[export] Hint Resolve emits_ret emits_bind emits_Serial_write
  emits_Serial_write_str emits_Serial_write_buf emits_Serial_print
  emits_Serial_print_base emits__VSend : emits.

(** ** The record's bytes *)

Lemma le_bytes_length : forall n v, List.length (le_bytes n v) = n.
Proof.
  induction n as [|n IH]; intros v; simpl; [reflexivity | now rewrite IH].
Qed.

Lemma bytes_of_Data_length : forall d,
  List.length (bytes_of_Data d) = 20%nat.
Proof.
  intros d; unfold bytes_of_Data.
  repeat rewrite length_app. repeat rewrite le_bytes_length. reflexivity.
Qed.

Lemma sizeof_Data_covers : forall d,
  firstn sizeof_Data (bytes_of_Data d) = bytes_of_Data d.
Proof.
  intros d. apply firstn_all2.
  rewrite bytes_of_Data_length. vm_compute. lia.
Qed.

Lemma le_value_le_bytes : forall n v,
  le_value (le_bytes n v) = v mod 256 ^ Z.of_nat n.
Proof.
  induction n as [|n IH]; intros v.
  - simpl. now rewrite Z.mod_1_r.
  - change (le_value (le_bytes (S n) v))
      with (v mod 256 + 256 * le_value (le_bytes n (v / 256))).
    rewrite IH, Nat2Z.inj_succ, Z.pow_succ_r by lia.
    rewrite Z.rem_mul_r by lia. reflexivity.
Qed.

Lemma le_value_unsigned : forall n v,
  0 <= v < 256 ^ Z.of_nat n -> le_value (le_bytes n v) = v.
Proof.
  intros n v H. rewrite le_value_le_bytes. now apply Z.mod_small.
Qed.

Lemma le_value_signed : forall v,
  Int.is_int16 v -> Int.int16 (le_value (le_bytes 2 v)) = v.
Proof.
  intros v H. rewrite le_value_le_bytes.
  unfold Int.is_int16 in H. unfold Int.int16.
  change (256 ^ Z.of_nat 2) with 65536.
  rewrite Zplus_mod_idemp_l.
  rewrite Z.mod_small by lia. lia.
Qed.

Lemma emits_SendData : forall d,
  emits (SendData d) (DataElement_frame (bytes_of_Data d)).
Proof.
  intros d. unfold SendData.
  eapply emits_eq; [auto with emits|].
  now rewrite sizeof_Data_covers.
Qed.

Lemma emits_SendAll : forall ds,
  emits (SendAll ds)
        (concat (map (fun d => DataElement_frame (bytes_of_Data d)) ds)).
Proof.
  induction ds as [|d ds IH]; cbn [SendAll map concat].
  - apply emits_ret.
  - apply emits_bind; [apply emits_SendData | apply IH].
Qed.

(** ** Message frames *)

Lemma emits_Send : forall t rest,
  emits (Send t rest) (Message_frame (concat (map text_of (t :: rest))) false).
Proof.
  intros t rest. unfold Send.
  eapply emits_eq; [auto with emits | reflexivity].
Qed.

Lemma emits_SendLine : forall t rest,
  emits (SendLine t rest) (Message_frame (concat (map text_of (t :: rest))) true).
Proof.
  intros t rest. unfold SendLine.
  eapply emits_eq; [auto 6 with emits | reflexivity].
Qed.

(** C6: [Send] writes the tag byte 0, the renderings of its arguments in
    argument order and a zero byte; [SendLine] writes the same with one line
    feed before the zero byte; neither does anything else. *)
Theorem Send_SendLine_bytes : forall (t : Arg) (rest : list Arg),
  emits (Send t rest) ([0] ++ concat (map text_of (t :: rest)) ++ [0]) /\
  emits (SendLine t rest) ([0] ++ concat (map text_of (t :: rest)) ++ [10; 0]).
Proof.
  intros t rest; split.
  - apply emits_Send.
  - apply emits_SendLine.
Qed.

(** ** The error-code helper *)

Lemma printNumber_loop_step : forall fuel n base str,
  printNumber_loop (S fuel) n base str =
  if n / base =? 0
  then (if n mod base <? 10 then n mod base + 48 else n mod base + 65 - 10) :: str
  else printNumber_loop fuel (n / base) base
         ((if n mod base <? 10 then n mod base + 48 else n mod base + 65 - 10) :: str).
Proof. reflexivity. Qed.

Lemma printNumber_digit : forall c,
  (if c <? 10 then c + 48 else c + 65 - 10) = hex_digit c.
Proof.
  intros c; unfold hex_digit. destruct (c <? 10); lia.
Qed.

Lemma printNumber_hex_byte : forall b,
  Int.is_uint8 b -> printNumber b HEX = hex_min b.
Proof.
  intros b Hb. unfold Int.is_uint8 in Hb.
  unfold printNumber, HEX, hex_min, hex2.
  change (16 <? 2) with false. cbv iota.
  change 32%nat with (S (S 30)).
  rewrite printNumber_loop_step, !printNumber_digit.
  destruct (Z.ltb_spec b 16) as [Hlt|Hge].
  - rewrite Z.div_small, Z.mod_small by lia. reflexivity.
  - assert (H1 : 1 <= b / 16 < 16).
    { split; [apply Z.div_le_lower_bound | apply Z.div_lt_upper_bound]; lia. }
    destruct (Z.eqb_spec (b / 16) 0) as [E|_]; [lia|].
    rewrite printNumber_loop_step, !printNumber_digit.
    rewrite (Z.div_small (b / 16)), (Z.mod_small (b / 16)) by lia.
    reflexivity.
Qed.

Lemma emits_SendErrorCode : forall b,
  emits (SendErrorCode b)
        (Message_frame (error_prefix ++ print_unsigned b HEX) true).
Proof.
  intros b. unfold SendErrorCode.
  eapply emits_eq; [auto 7 with emits|].
  unfold Message_frame. rewrite <- !app_assoc. reflexivity.
Qed.

(** C4, as the code has it: for every byte [b], [SendErrorCode b] writes a
    Message frame with a line feed whose text is ["  Error: 0x"] followed
    by the uppercase hexadecimal digits of [b] without a leading zero: one
    digit below 16, two digits from 16 on. *)
Theorem SendErrorCode_frame : forall b : Z,
  Int.is_uint8 b ->
  emits (SendErrorCode b) (Message_frame (error_prefix ++ hex_min b) true).
Proof.
  intros b Hb.
  eapply emits_eq; [apply emits_SendErrorCode|].
  unfold print_unsigned. change (HEX =? 0) with false. cbv iota.
  now rewrite printNumber_hex_byte.
Qed.

Lemma SendErrorCode_frame_0x0A :
  Int.is_uint8 10 /\
  emits (SendErrorCode 10)
        (Message_frame (bytes_of_string "  Error: 0xA") true).
Proof.
  split.
  - unfold Int.is_uint8; lia.
  - apply (SendErrorCode_frame 10). unfold Int.is_uint8; lia.
Defined.

(** C4, as stated, fails at the byte 0x0A: the text written is
    ["  Error: 0xA"], not the zero-padded ["  Error: 0x0A"], with or without
    the line feed. *)
Lemma SendErrorCode_0x0A_not_padded :
  emitted (SendErrorCode 10) 0 idle_world =
    Message_frame (bytes_of_string "  Error: 0xA") true /\
  emitted (SendErrorCode 10) 0 idle_world <>
    Message_frame (error_prefix ++ hex2 10) true /\
  emitted (SendErrorCode 10) 0 idle_world <>
    Message_frame (error_prefix ++ hex2 10) false /\
  error_prefix ++ hex2 10 = bytes_of_string "  Error: 0x0A".
Proof.
  repeat split; vm_compute; congruence.
Qed.

(** ** The fail-stop path *)

Lemma emits_then : forall (B : Type) (m : M unit) (k : unit -> M B) bs,
  emits m bs -> forall fuel w, bind m k fuel w = k tt fuel (emit bs w).
Proof.
  intros B m k bs H fuel w; unfold bind. now rewrite H.
Qed.

Lemma while_true_spins : forall fuel w,
  while_loop (fun _ : unit => true) (fun _ => ret tt) tt fuel w = Spinning w.
Proof.
  induction fuel as [|fuel IH]; intros w; simpl; [reflexivity | apply IH].
Qed.

Lemma ERROR_spins : forall fuel w,
  ERROR fuel w = Spinning (emit fail_stop_bytes w).
Proof.
  intros fuel w. unfold ERROR.
  rewrite (emits_then _ _ _ _ (emits_SendLine _ _)).
  rewrite (emits_then _ _ _ _ (emits_Serial_write _)).
  rewrite while_true_spins, emit_emit. reflexivity.
Qed.

(** C2: the fail-stop path writes the Message frame with the text
    "---ERROR---" and a line feed, then the ErrorMarker byte 255, and never
    returns: whatever the step budget, it is still in its loop with exactly
    these bytes written, so neither a second [ERROR] nor any other code put
    after it writes a byte. *)
Theorem ERROR_fail_stop :
  forall (B : Type) (next : unit -> M B) (fuel : nat) (w : World),
    fail_stop_bytes =
      [0] ++ bytes_of_string "---ERROR---" ++ [10; 0] ++ [255] /\
    ERROR fuel w = Spinning (emit fail_stop_bytes w) /\
    (ERROR ;; ERROR) fuel w = Spinning (emit fail_stop_bytes w) /\
    bind ERROR next fuel w = Spinning (emit fail_stop_bytes w) /\
    emitted (bind ERROR next) fuel w = fail_stop_bytes.
Proof.
  intros B next fuel w.
  assert (Hn : bind ERROR next fuel w = Spinning (emit fail_stop_bytes w))
    by (unfold bind; now rewrite ERROR_spins).
  repeat split.
  - apply ERROR_spins.
  - unfold bind. now rewrite ERROR_spins.
  - exact Hn.
  - unfold emitted. rewrite Hn. simpl.
    now rewrite skipn_app, skipn_all, Nat.sub_diag.
Qed.

(** ** Data frames *)

(** C9: a DataElement frame is 21 bytes long, whatever the record: the tag
    byte and the 20 bytes of the record (4 + 2 + 1 + 1 + 6 * 2, no padding). *)
Theorem SendData_frame_length : forall (dat : Data) (fuel : nat) (w : World),
  SendData dat fuel w = Done tt (emit (2 :: bytes_of_Data dat) w) /\
  length (emitted (SendData dat) fuel w) = 21%nat /\
  length (bytes_of_Data dat) = 20%nat /\
  sizeof_Data = 20%nat /\
  Data_field_sizes = [4; 2; 1; 1; 2; 2; 2; 2; 2; 2]%nat.
Proof.
  intros dat fuel w. repeat split.
  - apply emits_SendData.
  - rewrite (emits_emitted _ _ (emits_SendData dat)).
    unfold DataElement_frame. cbn [length]. now rewrite bytes_of_Data_length.
Qed.

(** C5: a record sent by [SendData] is recovered field by field from the
    frame by a decoder of the same layout. *)
Theorem SendData_round_trip : forall dat : Data,
  wf_Data dat ->
  forall (fuel : nat) (w : World),
    SendData dat fuel w = Done tt (emit (emitted (SendData dat) fuel w) w) /\
    emitted (SendData dat) fuel w = DataElement_frame (bytes_of_Data dat) /\
    parse_DataElement (emitted (SendData dat) fuel w) = Some dat.
Proof.
  intros dat Hwf fuel w.
  rewrite (emits_emitted _ _ (emits_SendData dat)).
  split; [apply emits_SendData | split; [reflexivity|]].
  destruct Hwf as [Hm Ha Hb0 Hb1 Hx Hy Hz Hp Hq Hr].
  destruct dat as [m a b0 b1 x y z p q r].
  unfold DataElement_frame, bytes_of_Data; cbn [micros analog btn_0 btn_1
    lin_acc_x lin_acc_y lin_acc_z rot_vel_x rot_vel_y rot_vel_z] in *.
  cbn [le_bytes app parse_DataElement].
  change (2 =? BYTE_DATA_ELEMENT) with true. cbv iota.
  change [m mod 256; (m / 256) mod 256; (m / 256 / 256) mod 256;
          (m / 256 / 256 / 256) mod 256] with (le_bytes 4 m).
  change [a mod 256; (a / 256) mod 256] with (le_bytes 2 a).
  change [b0 mod 256] with (le_bytes 1 b0).
  change [b1 mod 256] with (le_bytes 1 b1).
  change [x mod 256; (x / 256) mod 256] with (le_bytes 2 x).
  change [y mod 256; (y / 256) mod 256] with (le_bytes 2 y).
  change [z mod 256; (z / 256) mod 256] with (le_bytes 2 z).
  change [p mod 256; (p / 256) mod 256] with (le_bytes 2 p).
  change [q mod 256; (q / 256) mod 256] with (le_bytes 2 q).
  change [r mod 256; (r / 256) mod 256] with (le_bytes 2 r).
  rewrite !le_value_signed by assumption.
  rewrite !le_value_unsigned by assumption.
  reflexivity.
Qed.

Lemma SendData_round_trip_sample :
  wf_Data sample_record /\
  parse_DataElement (emitted (SendData sample_record) 0 idle_world)
    = Some sample_record.
Proof.
  assert (H : wf_Data sample_record)
    by (constructor; unfold Int.is_uint32, Int.is_uint16, Int.is_uint8,
          Int.is_int16; simpl; lia).
  split; [exact H|].
  apply (SendData_round_trip sample_record H 0%nat idle_world).
Defined.

(** C7: a batch of N records is one DataStart byte, N DataElement frames of
    21 bytes each, one DataEnd byte, and nothing else: 2 + 21 * N bytes. *)
Theorem SendBatch_stream : forall ds : list Data,
  let frames := map (fun d => DataElement_frame (bytes_of_Data d)) ds in
  emits (SendBatch ds) (DataStart_frame ++ concat frames ++ DataEnd_frame) /\
  DataStart_frame = [1] /\ DataEnd_frame = [3] /\
  length frames = length ds /\
  Forall (fun f => length f = 21%nat /\ hd 0 f = 2) frames /\
  length (DataStart_frame ++ concat frames ++ DataEnd_frame)
    = (2 + 21 * length ds)%nat.
Proof.
  intros ds frames; subst frames.
  assert (HF : Forall (fun f => length f = 21%nat /\ hd 0 f = 2)
                 (map (fun d => DataElement_frame (bytes_of_Data d)) ds)).
  { apply Forall_forall. intros f Hf. apply in_map_iff in Hf.
    destruct Hf as (d & <- & _). unfold DataElement_frame; cbn [length hd].
    now rewrite bytes_of_Data_length. }
  repeat split.
  - unfold SendBatch, SendDataStart, SendDataEnd.
    eapply emits_eq.
    + apply emits_bind; [apply emits_Serial_write|].
      apply emits_bind; [apply emits_SendAll | apply emits_Serial_write].
    + reflexivity.
  - apply length_map.
  - exact HF.
  - unfold DataStart_frame, DataEnd_frame. rewrite !length_app. cbn [length].
    assert (E : length (concat (map (fun d => DataElement_frame (bytes_of_Data d)) ds))
                = (21 * length ds)%nat).
    { clear HF. induction ds as [|d ds IH]; cbn [map concat length]; [reflexivity|].
      rewrite length_app, IH. unfold DataElement_frame. cbn [length].
      rewrite bytes_of_Data_length. lia. }
    rewrite E. lia.
Qed.

(** C10: the bytes a framing operation writes are a function of its
    arguments alone: two runs with the same arguments write the same bytes,
    whatever was sent before, whatever the state of the bus and whatever the
    step budget. *)
Theorem framing_deterministic :
  forall (fuel1 fuel2 : nat) (w1 w2 : World),
    (forall t rest,
        emitted (Send t rest) fuel1 w1 = emitted (Send t rest) fuel2 w2) /\
    (forall t rest,
        emitted (SendLine t rest) fuel1 w1 = emitted (SendLine t rest) fuel2 w2) /\
    (forall error_code,
        emitted (SendErrorCode error_code) fuel1 w1
        = emitted (SendErrorCode error_code) fuel2 w2) /\
    (forall dat,
        emitted (SendData dat) fuel1 w1 = emitted (SendData dat) fuel2 w2) /\
    emitted SendDataStart fuel1 w1 = emitted SendDataStart fuel2 w2 /\
    emitted SendDataEnd fuel1 w1 = emitted SendDataEnd fuel2 w2 /\
    emitted SendHeartbeat fuel1 w1 = emitted SendHeartbeat fuel2 w2.
Proof.
  intros fuel1 fuel2 w1 w2.
  repeat split; intros.
  - now rewrite !(emits_emitted _ _ (emits_Send t rest)).
  - now rewrite !(emits_emitted _ _ (emits_SendLine t rest)).
  - now rewrite !(emits_emitted _ _ (emits_SendErrorCode error_code)).
  - now rewrite !(emits_emitted _ _ (emits_SendData dat)).
  - now rewrite !(emits_emitted _ _ (emits_Serial_write BYTE_DATA_START)).
  - now rewrite !(emits_emitted _ _ (emits_Serial_write BYTE_DATA_END)).
  - now rewrite !(emits_emitted _ _ (emits_Serial_write BYTE_HEARTBEAT)).
Qed.

(** ** The burst read *)

Lemma land_disjoint : forall a lo,
  0 <= lo < 256 -> Z.land (a * 2 ^ 8) lo = 0.
Proof.
  intros a lo Hlo. apply Z.bits_inj'. intros n Hn.
  rewrite Z.land_spec, Z.bits_0.
  destruct (Z_lt_ge_dec n 8) as [Hlt|Hge].
  - rewrite Z.mul_pow2_bits_low by lia. reflexivity.
  - destruct (Z.eq_dec lo 0) as [->|Hnz].
    + rewrite Z.bits_0. apply andb_false_r.
    + rewrite (Z.bits_above_log2 lo n); [apply andb_false_r | lia |].
      apply Z.log2_lt_pow2; [lia|].
      apply Z.lt_le_trans with (2 ^ 8); [lia|].
      apply Z.pow_le_mono_r; lia.
Qed.

Lemma lor_high_low : forall a lo,
  0 <= lo < 256 -> Z.lor (a * 256) lo = a * 256 + lo.
Proof.
  intros a lo Hlo.
  change 256 with (2 ^ 8) at 1 2.
  rewrite <- Z.lxor_lor by (now apply land_disjoint).
  symmetry. apply Z.add_nocarry_lxor. now apply land_disjoint.
Qed.

(** The expression of the source computes the big-endian value. *)
Lemma read_pair_be16 : forall hi lo,
  Int.is_uint8 hi -> Int.is_uint8 lo ->
  Int.int16 (Int.or (Int.shl hi 8) lo) = be16_signed hi lo.
Proof.
  intros hi lo Hhi Hlo. unfold Int.is_uint8 in *.
  unfold Int.or, Int.shl, be16_signed.
  rewrite Z.shiftl_mul_pow2 by lia. change (2 ^ 8) with 256.
  unfold Int.int16.
  destruct (Z.ltb_spec (256 * hi + lo) 32768) as [Hlt|Hge].
  - rewrite (Z.mod_small (hi * 256 + 32768)) by lia.
    replace (hi * 256 + 32768 - 32768) with (hi * 256) by lia.
    rewrite lor_high_low by lia.
    rewrite Z.mod_small by lia. lia.
  - replace (hi * 256 + 32768) with (hi * 256 - 32768 + 1 * 65536) by lia.
    rewrite Z.mod_add by lia.
    rewrite (Z.mod_small (hi * 256 - 32768)) by lia.
    replace (hi * 256 - 32768 - 32768) with ((hi - 256) * 256) by lia.
    rewrite lor_high_low by lia.
    rewrite Z.mod_small by lia. lia.
Qed.

Lemma Wire_read_total : forall fuel tx rx lg rq dev,
  exists v rx',
    Wire_read fuel (mkWorld tx rx lg rq dev) = Done v (mkWorld tx rx' lg rq dev).
Proof.
  intros fuel tx rx lg rq dev; unfold Wire_read; simpl.
  destruct rx as [|b rx]; eauto.
Qed.

Lemma read_int16_total : forall fuel tx rx lg rq dev,
  exists v rx',
    read_int16 fuel (mkWorld tx rx lg rq dev) = Done v (mkWorld tx rx' lg rq dev).
Proof.
  intros fuel tx rx lg rq dev. unfold read_int16, bind.
  destruct (Wire_read_total fuel tx rx lg rq dev) as (hi & rx1 & ->).
  destruct (Wire_read_total fuel tx rx1 lg rq dev) as (lo & rx2 & ->).
  unfold ret. eauto.
Qed.

(** C8: [FillDataMPU6050] returns, whatever the bus delivers, and the
    record it leaves has the timestamp, analog and button fields it was
    given: only the six motion fields are assigned. *)
Theorem FillDataMPU6050_frame : forall (dat : Data) (fuel : nat) (w : World),
  exists (dat' : Data) (w' : World),
    FillDataMPU6050 dat fuel w = Done dat' w' /\
    micros dat' = micros dat /\
    analog dat' = analog dat /\
    btn_0 dat' = btn_0 dat /\
    btn_1 dat' = btn_1 dat.
Proof.
  intros dat fuel w. unfold FillDataMPU6050, bind.
  cbn [Wire_beginTransmission Wire_write Wire_endTransmission Wire_requestFrom
       log_event serial_tx wire_rx bus_log wire_reqs wire_dev].
  repeat match goal with
  | |- context [read_int16 fuel (mkWorld ?tx ?rx ?lg ?rq ?dev)] =>
      let v := fresh "v" in let rx' := fresh "rx" in
      destruct (read_int16_total fuel tx rx lg rq dev) as (v & rx' & ->)
  | |- context [Wire_read fuel (mkWorld ?tx ?rx ?lg ?rq ?dev)] =>
      let v := fresh "t" in let rx' := fresh "rx" in
      destruct (Wire_read_total fuel tx rx lg rq dev) as (v & rx' & ->)
  end.
  unfold ret. eexists _, _. split; [reflexivity|].
  cbn [micros analog btn_0 btn_1]. auto.
Qed.

Lemma Wire_read_cons : forall fuel tx b rx lg rq dev,
  Wire_read fuel (mkWorld tx (b :: rx) lg rq dev) = Done b (mkWorld tx rx lg rq dev).
Proof. reflexivity. Qed.

Lemma read_int16_cons : forall fuel tx hi lo rx lg rq dev,
  read_int16 fuel (mkWorld tx (hi :: lo :: rx) lg rq dev) =
  Done (Int.int16 (Int.or (Int.shl hi 8) lo)) (mkWorld tx rx lg rq dev).
Proof. reflexivity. Qed.

(** C1: one burst of 14 bytes is requested from the first data register
    (0x3B) of the device at 0x68; all 14 bytes are read; the six motion
    fields receive the signed big-endian value of their byte pair, high byte
    first, in the order accel x, y, z, (temperature, dropped), gyro x, y, z. *)
Theorem FillDataMPU6050_burst_decode :
  forall (dat : Data) (fuel : nat) (w : World)
         (ax_h ax_l ay_h ay_l az_h az_l t_h t_l gx_h gx_l gy_h gy_l gz_h gz_l : Z),
    wire_dev w (wire_reqs w) =
      [ax_h; ax_l; ay_h; ay_l; az_h; az_l; t_h; t_l;
       gx_h; gx_l; gy_h; gy_l; gz_h; gz_l] ->
    Forall Int.is_uint8
      [ax_h; ax_l; ay_h; ay_l; az_h; az_l; t_h; t_l;
       gx_h; gx_l; gy_h; gy_l; gz_h; gz_l] ->
    exists dat' : Data,
      FillDataMPU6050 dat fuel w =
        Done dat' (mkWorld (serial_tx w) []
                     (bus_log w ++
                        [EvBeginTransmission MPU6050_ADDR;
                         EvWrite MPU6050_DATA_OUT;
                         EvEndTransmission false;
                         EvRequestFrom MPU6050_ADDR 14])
                     (S (wire_reqs w)) (wire_dev w)) /\
      lin_acc_x dat' = be16_signed ax_h ax_l /\
      lin_acc_y dat' = be16_signed ay_h ay_l /\
      lin_acc_z dat' = be16_signed az_h az_l /\
      rot_vel_x dat' = be16_signed gx_h gx_l /\
      rot_vel_y dat' = be16_signed gy_h gy_l /\
      rot_vel_z dat' = be16_signed gz_h gz_l.
Proof.
  intros dat fuel w ax_h ax_l ay_h ay_l az_h az_l t_h t_l
         gx_h gx_l gy_h gy_l gz_h gz_l Hdev Hbytes.
  unfold FillDataMPU6050, bind.
  cbn [Wire_beginTransmission Wire_write Wire_endTransmission Wire_requestFrom
       log_event serial_tx wire_rx bus_log wire_reqs wire_dev].
  rewrite Hdev. cbn [firstn].
  repeat (first [rewrite read_int16_cons | rewrite Wire_read_cons];
          cbv beta iota).
  unfold ret. rewrite <- !app_assoc. cbn [app].
  eexists. split; [reflexivity|].
  cbn [lin_acc_x lin_acc_y lin_acc_z rot_vel_x rot_vel_y rot_vel_z].
  repeat match goal with
         | H : Forall _ (_ :: _) |- _ => inversion H; subst; clear H
         end.
  repeat split; apply read_pair_be16; assumption.
Qed.

Lemma FillDataMPU6050_burst_decode_sample :
  exists dat' : Data,
    FillDataMPU6050 sample_record 0%nat
      (mkWorld [] [] [] 0
         (fun _ => [0; 100; 255; 56; 1; 44; 13; 128; 255; 206; 0; 0; 0; 50]))
    = Done dat'
        (mkWorld [] [] burst_events 1
           (fun _ => [0; 100; 255; 56; 1; 44; 13; 128; 255; 206; 0; 0; 0; 50])) /\
    lin_acc_x dat' = 100 /\ lin_acc_y dat' = -200 /\ lin_acc_z dat' = 300 /\
    rot_vel_x dat' = -50 /\ rot_vel_y dat' = 0 /\ rot_vel_z dat' = 50.
Proof.
  apply (FillDataMPU6050_burst_decode sample_record 0%nat
           (mkWorld [] [] [] 0
              (fun _ => [0; 100; 255; 56; 1; 44; 13; 128; 255; 206; 0; 0; 0; 50]))
           0 100 255 56 1 44 13 128 255 206 0 0 0 50).
  - reflexivity.
  - repeat constructor; unfold Int.is_uint8; lia.
Defined.

(** ** The reset poll loop *)

Lemma land_128 : forall v, (Int.and v 128 =? 0) = negb (Z.testbit v 7).
Proof.
  intros v. unfold Int.and. change 128 with (2 ^ 7).
  destruct (Z.testbit v 7) eqn:E.
  - assert (H : Z.land v (2 ^ 7) = 2 ^ 7).
    { apply Z.bits_inj'. intros n Hn.
      rewrite Z.land_spec, Z.pow2_bits_eqb by lia.
      destruct (Z.eqb_spec 7 n) as [<-|_];
        [now rewrite E | apply andb_false_r]. }
    now rewrite H.
  - assert (H : Z.land v (2 ^ 7) = 0).
    { apply Z.bits_inj'. intros n Hn.
      rewrite Z.land_spec, Z.pow2_bits_eqb, Z.bits_0 by lia.
      destruct (Z.eqb_spec 7 n) as [<-|_];
        [now rewrite E | apply andb_false_r]. }
    now rewrite H.
Qed.

(** One pass of the loop body: one request for one byte, and [has_reset]
    tells whether the reset bit read clear. *)
Lemma poll_reset_step : forall has_reset fuel w,
  poll_reset has_reset fuel w =
    Done (reads_clear (wire_dev w (wire_reqs w)))
         (mkWorld (serial_tx w) [] (bus_log w ++ poll_events)
                  (S (wire_reqs w)) (wire_dev w)).
Proof.
  intros has_reset fuel w. unfold poll_reset, bind.
  cbn [Wire_write Wire_endTransmission Wire_requestFrom
       log_event serial_tx wire_rx bus_log wire_reqs wire_dev].
  rewrite <- !app_assoc. cbn [app].
  destruct (wire_dev w (wire_reqs w)) as [|b answer]; cbn [firstn reads_clear].
  - reflexivity.
  - rewrite Wire_read_cons. unfold ret. now rewrite land_128.
Qed.

Lemma wait_loop_spins : forall fuel w,
  (forall i, reads_clear (wire_dev w (wire_reqs w + i)%nat) = false) ->
  exists rx,
    while_loop negb poll_reset false fuel w =
      Spinning (mkWorld (serial_tx w) rx
                  (bus_log w ++ repeat_events fuel poll_events)
                  (wire_reqs w + fuel) (wire_dev w)).
Proof.
  induction fuel as [|fuel IH]; intros w Hbusy.
  - exists (wire_rx w). cbn [while_loop negb repeat_events].
    rewrite app_nil_r, Nat.add_0_r. now destruct w.
  - cbn [while_loop negb]. rewrite poll_reset_step.
    specialize (Hbusy 0%nat) as H0. rewrite Nat.add_0_r in H0. rewrite H0.
    match goal with |- context [while_loop _ _ _ _ ?w1] =>
      destruct (IH w1) as (rx & ->) end.
    + intros i. cbn [wire_dev wire_reqs].
      replace (S (wire_reqs w) + i)%nat with (wire_reqs w + S i)%nat by lia.
      apply Hbusy.
    + exists rx. cbn [serial_tx bus_log wire_reqs wire_dev repeat_events].
      rewrite <- app_assoc. f_equal. f_equal. lia.
Qed.

Lemma wait_loop_returns : forall busy fuel w,
  (busy < fuel)%nat ->
  (forall i, (i < busy)%nat ->
             reads_clear (wire_dev w (wire_reqs w + i)%nat) = false) ->
  reads_clear (wire_dev w (wire_reqs w + busy)%nat) = true ->
  while_loop negb poll_reset false fuel w =
    Done true (mkWorld (serial_tx w) []
                 (bus_log w ++ repeat_events (S busy) poll_events)
                 (wire_reqs w + S busy) (wire_dev w)).
Proof.
  induction busy as [|busy IH]; intros fuel w Hfuel Hbusy Hclear;
    (destruct fuel as [|fuel]; [lia|]);
    cbn [while_loop negb]; rewrite poll_reset_step.
  - rewrite Nat.add_0_r in Hclear. rewrite Hclear.
    destruct fuel; cbn [while_loop negb repeat_events];
      rewrite app_nil_r, Nat.add_1_r; reflexivity.
  - specialize (Hbusy 0%nat ltac:(lia)) as H0.
    rewrite Nat.add_0_r in H0. rewrite H0.
    rewrite IH; cbn [serial_tx bus_log wire_reqs wire_dev].
    + cbn [repeat_events]. rewrite <- !app_assoc.
      f_equal. f_equal. lia.
    + lia.
    + intros i Hi.
      replace (S (wire_reqs w) + i)%nat with (wire_reqs w + S i)%nat by lia.
      apply Hbusy. lia.
    + replace (S (wire_reqs w) + busy)%nat
        with (wire_reqs w + S busy)%nat by lia.
      exact Hclear.
Qed.

(** C3: when the reset bit first reads clear on the k-th poll, the wait
    loop makes exactly k polls and [SetupMPU6050] goes on to the
    configuration writes and returns; when the bit never reads clear,
    [SetupMPU6050] is still polling after any number of steps, one poll per
    step, and has made none of the configuration writes. *)
Theorem SetupMPU6050_reset_poll : forall w : World,
  (forall k fuel : nat,
      (1 <= k <= fuel)%nat ->
      (forall i, (1 <= i < k)%nat -> reads_clear (poll_answer w i) = false) ->
      reads_clear (poll_answer w k) = true ->
      SetupMPU6050 fuel w =
        Done tt (mkWorld (serial_tx w) []
                   (bus_log w ++ reset_events ++
                    repeat_events k poll_events ++ config_events)
                   (wire_reqs w + k) (wire_dev w)))
  /\
  ((forall i, (1 <= i)%nat -> reads_clear (poll_answer w i) = false) ->
   forall fuel : nat,
     exists rx,
       SetupMPU6050 fuel w =
         Spinning (mkWorld (serial_tx w) rx
                     (bus_log w ++ reset_events ++
                      repeat_events fuel poll_events)
                     (wire_reqs w + fuel) (wire_dev w))).
Proof.
  intros [tx rx lg rq dev]. unfold poll_answer.
  cbn [serial_tx wire_rx bus_log wire_reqs wire_dev].
  split.
  - intros k fuel Hk Hbusy Hclear.
    destruct k as [|busy]; [lia|].
    cbv beta iota delta [SetupMPU6050 bind Wire_begin Wire_setClock
      Wire_beginTransmission Wire_write Wire_endTransmission delay log_event
      serial_tx wire_rx bus_log wire_reqs wire_dev].
    rewrite (wait_loop_returns busy);
      cbn [serial_tx wire_rx bus_log wire_reqs wire_dev].
    + rewrite <- !app_assoc. reflexivity.
    + lia.
    + intros i Hi. specialize (Hbusy (S i) ltac:(lia)).
      now replace (S i - 1)%nat with i in Hbusy by lia.
    + now replace (S busy - 1)%nat with busy in Hclear by lia.
  - intros Hbusy fuel.
    cbv beta iota delta [SetupMPU6050 bind Wire_begin Wire_setClock
      Wire_beginTransmission Wire_write Wire_endTransmission delay log_event
      serial_tx wire_rx bus_log wire_reqs wire_dev].
    match goal with |- context [while_loop _ _ _ _ ?w1] =>
      destruct (wait_loop_spins fuel w1) as (rx' & ->) end.
    + intros i. cbn [wire_dev wire_reqs].
      specialize (Hbusy (S i) ltac:(lia)).
      now replace (S i - 1)%nat with i in Hbusy by lia.
    + exists rx'. cbn [serial_tx bus_log wire_reqs wire_dev].
      rewrite <- !app_assoc. reflexivity.
Qed.

Lemma SetupMPU6050_reset_poll_sample :
  SetupMPU6050 5%nat device_ready_at_3 =
    Done tt (mkWorld [] []
               (reset_events ++ repeat_events 3 poll_events ++ config_events)
               3 (wire_dev device_ready_at_3)) /\
  exists rx,
    SetupMPU6050 5%nat device_never_ready =
      Spinning (mkWorld [] rx (reset_events ++ repeat_events 5 poll_events)
                  5 (wire_dev device_never_ready)).
Proof.
  split.
  - apply (proj1 (SetupMPU6050_reset_poll device_ready_at_3) 3%nat 5%nat).
    + lia.
    + intros i Hi. assert (E : i = 1%nat \/ i = 2%nat) by lia.
      destruct E as [-> | ->]; reflexivity.
    + reflexivity.
  - apply (proj2 (SetupMPU6050_reset_poll device_never_ready)).
    intros i _. reflexivity.
Defined.

(** * Further properties of the driver and of the frames *)

(** ** The burst read on any answer of the device *)

Lemma Forall_skipn_keep : forall (A : Type) (P : A -> Prop) n (l : list A),
  Forall P l -> Forall P (skipn n l).
Proof.
  intros A P n l H. rewrite <- (firstn_skipn n l) in H.
  now apply Forall_app in H.
Qed.

Lemma Forall_firstn_keep : forall (A : Type) (P : A -> Prop) n (l : list A),
  Forall P l -> Forall P (firstn n l).
Proof.
  intros A P n l H. rewrite <- (firstn_skipn n l) in H.
  now apply Forall_app in H.
Qed.


Lemma Wire_read_any : forall fuel tx rx lg rq dev,
  Wire_read fuel (mkWorld tx rx lg rq dev) =
  Done (hd (-1) rx) (mkWorld tx (skipn 1 rx) lg rq dev).
Proof. intros fuel tx [|b rx] lg rq dev; reflexivity. Qed.

Lemma read_int16_any : forall fuel tx rx lg rq dev,
  Forall Int.is_uint8 rx ->
  read_int16 fuel (mkWorld tx rx lg rq dev) =
  Done (pair_value rx 0) (mkWorld tx (skipn 2 rx) lg rq dev).
Proof.
  intros fuel tx rx lg rq dev H.
  destruct rx as [|hi [|lo rx]].
  - reflexivity.
  - unfold read_int16, bind. rewrite !Wire_read_any. cbn [hd skipn].
    unfold ret, pair_value; cbn [nth_error].
    unfold Int.or. rewrite Z.lor_m1_r. reflexivity.
  - rewrite read_int16_cons. unfold pair_value; cbn [nth_error skipn].
    rewrite read_pair_be16; [reflexivity | |].
    + now inversion H.
    + inversion H as [|? ? _ H']. now inversion H'.
Qed.

Lemma read_int16_short : forall fuel tx rx lg rq dev,
  (length rx <= 1)%nat ->
  read_int16 fuel (mkWorld tx rx lg rq dev) = Done (-1) (mkWorld tx [] lg rq dev).
Proof.
  intros fuel tx rx lg rq dev H.
  destruct rx as [|hi [|lo rx]]; [reflexivity | | simpl in H; lia].
  unfold read_int16, bind. rewrite !Wire_read_any. cbn [hd skipn].
  unfold ret, Int.or. rewrite Z.lor_m1_r. reflexivity.
Qed.


Lemma FillDataMPU6050_run : forall dat fuel w,
  Forall Int.is_uint8 (wire_dev w (wire_reqs w)) ->
  FillDataMPU6050 dat fuel w =
    let rx := firstn 14 (wire_dev w (wire_reqs w)) in
    Done (mkData (micros dat) (analog dat) (btn_0 dat) (btn_1 dat)
                 (pair_value rx 0) (pair_value rx 2) (pair_value rx 4)
                 (pair_value rx 8) (pair_value rx 10) (pair_value rx 12))
         (mkWorld (serial_tx w) [] (bus_log w ++ burst_events)
                  (S (wire_reqs w)) (wire_dev w)).
Proof.
  intros dat fuel [tx rx0 lg rq dev].
  cbn [serial_tx wire_rx bus_log wire_reqs wire_dev]. intros Hbytes.
  cbv beta iota zeta delta [FillDataMPU6050 bind Wire_beginTransmission
    Wire_write Wire_endTransmission Wire_requestFrom log_event
    serial_tx wire_rx bus_log wire_reqs wire_dev].
  assert (Hrx : Forall Int.is_uint8 (firstn 14 (dev rq)))
    by now apply Forall_firstn_keep.
  assert (Hend : skipn 14 (firstn 14 (dev rq)) = []).
  { apply skipn_all2. rewrite length_firstn. apply Nat.le_min_l. }
  revert Hrx Hend. generalize (firstn 14 (dev rq)) as rx. intros rx Hrx Hend.
  repeat (first
    [ rewrite read_int16_any by (repeat apply Forall_skipn_keep; exact Hrx)
    | rewrite Wire_read_any ];
    cbv beta iota).
  rewrite !skipn_skipn. cbn [Nat.add]. rewrite Hend.
  unfold ret, pair_value. rewrite !nth_error_skipn. cbn [Nat.add].
  rewrite <- !app_assoc. reflexivity.
Qed.

(** For any answer of the device whose bytes are bytes, however long:
    [FillDataMPU6050] makes one request for 14 bytes, drains the receive
    buffer, writes nothing to the serial transport, and each motion field
    receives the big-endian value of its pair when both bytes arrived and
    -1 otherwise. *)
Theorem FillDataMPU6050_any_answer : forall (dat : Data) (fuel : nat) (w : World),
  Forall Int.is_uint8 (wire_dev w (wire_reqs w)) ->
  FillDataMPU6050 dat fuel w =
    let rx := firstn 14 (wire_dev w (wire_reqs w)) in
    Done (mkData (micros dat) (analog dat) (btn_0 dat) (btn_1 dat)
                 (pair_value rx 0) (pair_value rx 2) (pair_value rx 4)
                 (pair_value rx 8) (pair_value rx 10) (pair_value rx 12))
         (mkWorld (serial_tx w) [] (bus_log w ++ burst_events)
                  (S (wire_reqs w)) (wire_dev w)).
Proof. exact FillDataMPU6050_run. Qed.

Lemma FillDataMPU6050_any_answer_partial :
  Forall Int.is_uint8 [255; 56; 1] /\
  FillDataMPU6050 sample_record 0%nat
    (mkWorld [] [] [] 0 (fun _ => [255; 56; 1])) =
  Done (mkData 123456 512 1 0 (-200) (-1) (-1) (-1) (-1) (-1))
       (mkWorld [] [] burst_events 1 (fun _ => [255; 56; 1])).
Proof.
  assert (H : Forall Int.is_uint8 [255; 56; 1])
    by (repeat constructor; unfold Int.is_uint8; lia).
  split; [exact H|].
  apply (FillDataMPU6050_any_answer sample_record 0%nat
           (mkWorld [] [] [] 0 (fun _ => [255; 56; 1])) H).
Defined.

(** A failed transaction: when the device delivers fewer than two bytes,
    whatever they are, every motion field is set to -1 (not to 0), and
    [FillDataMPU6050] returns as after a successful read. *)
Theorem FillDataMPU6050_no_data : forall (dat : Data) (fuel : nat) (w : World),
  (length (wire_dev w (wire_reqs w)) <= 1)%nat ->
  FillDataMPU6050 dat fuel w =
    Done (mkData (micros dat) (analog dat) (btn_0 dat) (btn_1 dat)
                 (-1) (-1) (-1) (-1) (-1) (-1))
         (mkWorld (serial_tx w) [] (bus_log w ++ burst_events)
                  (S (wire_reqs w)) (wire_dev w)).
Proof.
  intros dat fuel [tx rx0 lg rq dev].
  cbn [serial_tx wire_rx bus_log wire_reqs wire_dev]. intros Hlen.
  cbv beta iota zeta delta [FillDataMPU6050 bind Wire_beginTransmission
    Wire_write Wire_endTransmission Wire_requestFrom log_event
    serial_tx wire_rx bus_log wire_reqs wire_dev].
  assert (Hrx : (length (firstn 14 (dev rq)) <= 1)%nat)
    by (rewrite length_firstn; lia).
  revert Hrx. generalize (firstn 14 (dev rq)) as rx. intros rx Hrx.
  rewrite (read_int16_short _ _ rx) by exact Hrx. cbv beta iota.
  repeat (first
    [ rewrite (read_int16_short _ _ []) by (cbn [length]; lia)
    | rewrite Wire_read_any ];
    cbv beta iota; cbn [skipn hd]).
  unfold ret. rewrite <- !app_assoc. reflexivity.
Qed.

Lemma FillDataMPU6050_no_data_silent_device :
  (length (wire_dev idle_world (wire_reqs idle_world)) <= 1)%nat /\
  FillDataMPU6050 sample_record 0%nat idle_world =
    Done (mkData 123456 512 1 0 (-1) (-1) (-1) (-1) (-1) (-1))
         (mkWorld [] [] burst_events 1 (wire_dev idle_world)).
Proof.
  assert (H : (length (wire_dev idle_world (wire_reqs idle_world)) <= 1)%nat)
    by (cbn; lia).
  split; [exact H|].
  apply (FillDataMPU6050_no_data sample_record 0%nat idle_world H).
Defined.



(** ** The setup on any device *)

Lemma wait_loop_cases : forall fuel w,
  (exists n, (1 <= n <= fuel)%nat /\
     while_loop negb poll_reset false fuel w =
       Done true (mkWorld (serial_tx w) []
                    (bus_log w ++ repeat_events n poll_events)
                    (wire_reqs w + n) (wire_dev w)))
  \/
  (exists rx,
     while_loop negb poll_reset false fuel w =
       Spinning (mkWorld (serial_tx w) rx
                   (bus_log w ++ repeat_events fuel poll_events)
                   (wire_reqs w + fuel) (wire_dev w))).
Proof.
  induction fuel as [|fuel IH]; intros [tx rx lg rq dev];
    cbn [serial_tx wire_rx bus_log wire_reqs wire_dev].
  - right. exists rx. cbn [while_loop negb repeat_events].
    now rewrite app_nil_r, Nat.add_0_r.
  - cbn [while_loop negb]. rewrite poll_reset_step.
    cbn [serial_tx wire_rx bus_log wire_reqs wire_dev].
    destruct (reads_clear (dev rq)).
    + left. exists 1%nat. split; [lia|].
      destruct fuel; cbn [while_loop negb repeat_events];
        now rewrite app_nil_r, Nat.add_1_r.
    + match goal with |- context [while_loop _ _ _ _ ?w1] =>
        destruct (IH w1) as [(n & Hn & ->) | (rx' & ->)] end;
        cbn [serial_tx wire_rx bus_log wire_reqs wire_dev].
      * left. exists (S n). split; [lia|].
        cbn [repeat_events]. rewrite <- !app_assoc.
        now replace (S rq + n)%nat with (rq + S n)%nat by lia.
      * right. exists rx'.
        cbn [repeat_events]. rewrite <- !app_assoc.
        now replace (S rq + fuel)%nat with (rq + S fuel)%nat by lia.
Qed.

(** Whatever the device answers and whatever the step budget,
    [SetupMPU6050] either returns after n >= 1 polls followed by the
    configuration writes, or is still polling after one poll per step with no
    configuration write made.  In both cases it has written nothing to the
    serial transport, every request was for one byte from address 0x68, and
    the reset command came first. *)
Theorem SetupMPU6050_any_device : forall (fuel : nat) (w : World),
  (exists n, (1 <= n <= fuel)%nat /\
     SetupMPU6050 fuel w =
       Done tt (mkWorld (serial_tx w) []
                  (bus_log w ++ reset_events ++
                   repeat_events n poll_events ++ config_events)
                  (wire_reqs w + n) (wire_dev w)))
  \/
  (exists rx,
     SetupMPU6050 fuel w =
       Spinning (mkWorld (serial_tx w) rx
                   (bus_log w ++ reset_events ++
                    repeat_events fuel poll_events)
                   (wire_reqs w + fuel) (wire_dev w))).
Proof.
  intros fuel [tx rx lg rq dev].
  cbn [serial_tx wire_rx bus_log wire_reqs wire_dev].
  cbv beta iota delta [SetupMPU6050 bind Wire_begin Wire_setClock
    Wire_beginTransmission Wire_write Wire_endTransmission delay log_event
    serial_tx wire_rx bus_log wire_reqs wire_dev].
  match goal with |- context [while_loop _ _ _ _ ?w1] =>
    destruct (wait_loop_cases fuel w1) as [(n & Hn & ->) | (rx' & ->)] end;
    cbn [serial_tx wire_rx bus_log wire_reqs wire_dev].
  - left. exists n. split; [exact Hn|].
    rewrite <- !app_assoc. reflexivity.
  - right. exists rx'. rewrite <- !app_assoc. reflexivity.
Qed.

(** ** What a receiver can recover from the data frames *)

Lemma parse_bytes_of_Data : forall d,
  wf_Data d -> parse_DataElement (DataElement_frame (bytes_of_Data d)) = Some d.
Proof.
  intros d [Hm Ha Hb0 Hb1 Hx Hy Hz Hp Hq Hr].
  destruct d as [m a b0 b1 x y z p q r].
  unfold DataElement_frame, bytes_of_Data; cbn [micros analog btn_0 btn_1
    lin_acc_x lin_acc_y lin_acc_z rot_vel_x rot_vel_y rot_vel_z] in *.
  cbn [le_bytes app parse_DataElement].
  change (2 =? BYTE_DATA_ELEMENT) with true. cbv iota.
  change [m mod 256; (m / 256) mod 256; (m / 256 / 256) mod 256;
          (m / 256 / 256 / 256) mod 256] with (le_bytes 4 m).
  change [a mod 256; (a / 256) mod 256] with (le_bytes 2 a).
  change [b0 mod 256] with (le_bytes 1 b0).
  change [b1 mod 256] with (le_bytes 1 b1).
  change [x mod 256; (x / 256) mod 256] with (le_bytes 2 x).
  change [y mod 256; (y / 256) mod 256] with (le_bytes 2 y).
  change [z mod 256; (z / 256) mod 256] with (le_bytes 2 z).
  change [p mod 256; (p / 256) mod 256] with (le_bytes 2 p).
  change [q mod 256; (q / 256) mod 256] with (le_bytes 2 q).
  change [r mod 256; (r / 256) mod 256] with (le_bytes 2 r).
  rewrite !le_value_signed by assumption.
  rewrite !le_value_unsigned by assumption.
  reflexivity.
Qed.

Lemma bytes_of_Data_inj : forall d1 d2,
  wf_Data d1 -> wf_Data d2 -> bytes_of_Data d1 = bytes_of_Data d2 -> d1 = d2.
Proof.
  intros d1 d2 H1 H2 E.
  apply parse_bytes_of_Data in H1. apply parse_bytes_of_Data in H2.
  rewrite E in H1. congruence.
Qed.

Lemma app_same_length : forall (A : Type) (a1 a2 b1 b2 : list A),
  length a1 = length a2 -> a1 ++ b1 = a2 ++ b2 -> a1 = a2 /\ b1 = b2.
Proof.
  induction a1 as [|x a1 IH]; intros [|y a2] b1 b2 Hlen E;
    try discriminate Hlen.
  - now split.
  - injection E as -> E. injection Hlen as Hlen.
    destruct (IH a2 b1 b2 Hlen E) as [-> ->]. now split.
Qed.

Lemma frames_inj : forall ds1 ds2,
  Forall wf_Data ds1 -> Forall wf_Data ds2 ->
  concat (map (fun d => DataElement_frame (bytes_of_Data d)) ds1) =
  concat (map (fun d => DataElement_frame (bytes_of_Data d)) ds2) ->
  ds1 = ds2.
Proof.
  induction ds1 as [|d1 ds1 IH]; intros [|d2 ds2] H1 H2 E;
    cbn [map concat] in E.
  - reflexivity.
  - discriminate E.
  - discriminate E.
  - inversion H1 as [|? ? Hd1 Hds1]; inversion H2 as [|? ? Hd2 Hds2]; subst.
    apply app_same_length in E.
    + destruct E as [Ef Et]. unfold DataElement_frame in Ef.
      assert (Eb : bytes_of_Data d1 = bytes_of_Data d2)
        by exact (f_equal (@tl Z) Ef).
      f_equal; [now apply bytes_of_Data_inj | now apply IH].
    + unfold DataElement_frame. cbn [length].
      now rewrite !bytes_of_Data_length.
Qed.

(** Two records within the ranges of their C types that [SendData] turns
    into the same bytes are the same record: the frame loses nothing. *)
Theorem SendData_injective :
  forall (d1 d2 : Data) (fuel1 fuel2 : nat) (w1 w2 : World),
    wf_Data d1 -> wf_Data d2 ->
    emitted (SendData d1) fuel1 w1 = emitted (SendData d2) fuel2 w2 ->
    d1 = d2.
Proof.
  intros d1 d2 fuel1 fuel2 w1 w2 H1 H2 E.
  rewrite !(emits_emitted _ _ (emits_SendData _)) in E.
  unfold DataElement_frame in E.
  apply bytes_of_Data_inj; [assumption | assumption |].
  exact (f_equal (@tl Z) E).
Qed.

(** Two batches of records within range that give the same byte stream are
    the same batch: the number of records and every record can be read
    back from the stream between DataStart and DataEnd. *)
Theorem SendBatch_injective :
  forall (ds1 ds2 : list Data) (fuel1 fuel2 : nat) (w1 w2 : World),
    Forall wf_Data ds1 -> Forall wf_Data ds2 ->
    emitted (SendBatch ds1) fuel1 w1 = emitted (SendBatch ds2) fuel2 w2 ->
    ds1 = ds2.
Proof.
  intros ds1 ds2 fuel1 fuel2 w1 w2 H1 H2 E.
  assert (Hb : forall ds,
    emits (SendBatch ds)
      ([1] ++ concat (map (fun d => DataElement_frame (bytes_of_Data d)) ds)
           ++ [3])).
  { intros ds. unfold SendBatch, SendDataStart, SendDataEnd.
    eapply emits_eq.
    - apply emits_bind; [apply emits_Serial_write|].
      apply emits_bind; [apply emits_SendAll | apply emits_Serial_write].
    - reflexivity. }
  rewrite !(emits_emitted _ _ (Hb _)) in E.
  apply app_inv_head in E. apply app_inv_tail in E.
  now apply frames_inj.
Qed.

Lemma sample_record_wf : wf_Data sample_record.
Proof.
  constructor; unfold Int.is_uint32, Int.is_uint16, Int.is_uint8,
    Int.is_int16; simpl; lia.
Defined.

Lemma SendData_injective_sample :
  wf_Data sample_record /\
  emitted (SendData sample_record) 0 idle_world
    = emitted (SendData sample_record) 3 device_never_ready /\
  sample_record = sample_record.
Proof.
  split; [exact sample_record_wf|]. split; [reflexivity|].
  apply (SendData_injective sample_record sample_record 0%nat 3%nat
           idle_world device_never_ready sample_record_wf sample_record_wf).
  reflexivity.
Defined.

Lemma SendBatch_injective_sample :
  Forall wf_Data [sample_record; sample_record] /\
  [sample_record; sample_record] = [sample_record; sample_record].
Proof.
  assert (H : Forall wf_Data [sample_record; sample_record])
    by (constructor; [exact sample_record_wf|];
        constructor; [exact sample_record_wf | constructor]).
  split; [exact H|].
  apply (SendBatch_injective [sample_record; sample_record]
           [sample_record; sample_record] 0%nat 0%nat idle_world idle_world
           H H).
  reflexivity.
Defined.

(** ** What a receiver can rely on in the message frames *)

Lemma hex_digit_bounds : forall d, 0 <= d < 16 -> 48 <= hex_digit d <= 70.
Proof.
  intros d Hd. unfold hex_digit. destruct (Z.ltb_spec d 10); lia.
Qed.

Lemma hex_digit_value_digit : forall d,
  0 <= d < 16 -> hex_digit_value (hex_digit d) = d.
Proof.
  intros d Hd. unfold hex_digit_value, hex_digit.
  destruct (Z.ltb_spec d 10) as [H|H].
  - destruct (Z.ltb_spec (48 + d) 58); lia.
  - destruct (Z.ltb_spec (55 + d) 58); lia.
Qed.

Lemma hex_value_hex_min : forall b,
  Int.is_uint8 b -> hex_value (hex_min b) = b.
Proof.
  intros b Hb. unfold Int.is_uint8 in Hb. unfold hex_value, hex_min, hex2.
  destruct (Z.ltb_spec b 16) as [Hlt|Hge]; cbn [fold_left].
  - rewrite hex_digit_value_digit by lia. lia.
  - assert (H1 : 0 <= b / 16 < 16).
    { split; [apply Z.div_pos | apply Z.div_lt_upper_bound]; lia. }
    pose proof (Z.mod_pos_bound b 16 ltac:(lia)) as H2.
    rewrite !hex_digit_value_digit by lia.
    pose proof (Z.div_mod b 16 ltac:(lia)). lia.
Qed.

Lemma SendErrorCode_bytes : forall b,
  Int.is_uint8 b ->
  emits (SendErrorCode b) ([0] ++ (error_prefix ++ hex_min b ++ [10]) ++ [0]).
Proof.
  intros b Hb.
  eapply emits_eq; [apply emits_SendErrorCode|].
  unfold print_unsigned. change (HEX =? 0) with false. cbv iota.
  rewrite printNumber_hex_byte by exact Hb.
  unfold Message_frame. rewrite <- !app_assoc. reflexivity.
Qed.

(** Different error codes give different frames: the byte can be read back
    from the message [SendErrorCode] writes. *)
Theorem SendErrorCode_injective :
  forall (b1 b2 : Z) (fuel1 fuel2 : nat) (w1 w2 : World),
    Int.is_uint8 b1 -> Int.is_uint8 b2 ->
    emitted (SendErrorCode b1) fuel1 w1 = emitted (SendErrorCode b2) fuel2 w2 ->
    b1 = b2.
Proof.
  intros b1 b2 fuel1 fuel2 w1 w2 H1 H2 E.
  rewrite (emits_emitted _ _ (SendErrorCode_bytes b1 H1)) in E.
  rewrite (emits_emitted _ _ (SendErrorCode_bytes b2 H2)) in E.
  apply app_inv_head in E. apply app_inv_tail in E.
  apply app_inv_head in E. apply app_inv_tail in E.
  rewrite <- (hex_value_hex_min b1 H1), <- (hex_value_hex_min b2 H2).
  now rewrite E.
Qed.

Lemma SendErrorCode_injective_sample :
  Int.is_uint8 171 /\
  emitted (SendErrorCode 171) 0 idle_world
    = emitted (SendErrorCode 171) 2 device_ready_at_3 /\
  171 = 171.
Proof.
  assert (H : Int.is_uint8 171) by (unfold Int.is_uint8; lia).
  split; [exact H|]. split; [reflexivity|].
  apply (SendErrorCode_injective 171 171 0%nat 2%nat idle_world
           device_ready_at_3 H H).
  reflexivity.
Defined.

(** The message of [SendErrorCode] is well delimited: between the tag byte
    and the terminating zero there are 13 bytes (codes below 16) or 14
    bytes, all of them ASCII in 10..127 and the last one a line feed, so
    none is a zero and none is one of the tag bytes 0, 1, 2, 3, 250, 255. *)
Theorem SendErrorCode_text_is_ascii : forall b : Z,
  Int.is_uint8 b ->
  exists text : list Z,
    emits (SendErrorCode b) ([0] ++ text ++ [0]) /\
    Forall (fun c => 10 <= c < 128) text /\
    last text 0 = 10 /\
    length text = if b <? 16 then 13%nat else 14%nat.
Proof.
  intros b Hb. exists (error_prefix ++ hex_min b ++ [10]).
  split; [now apply SendErrorCode_bytes|].
  unfold Int.is_uint8 in Hb.
  assert (Hd : Forall (fun c => 10 <= c < 128) (hex_min b)).
  { unfold hex_min, hex2. destruct (b <? 16) eqn:E.
    - apply Z.ltb_lt in E.
      pose proof (hex_digit_bounds b ltac:(lia)).
      repeat constructor; lia.
    - assert (H1 : 0 <= b / 16 < 16).
      { split; [apply Z.div_pos | apply Z.div_lt_upper_bound]; lia. }
      pose proof (Z.mod_pos_bound b 16 ltac:(lia)) as H2.
      pose proof (hex_digit_bounds (b / 16) H1).
      pose proof (hex_digit_bounds (b mod 16) H2).
      repeat constructor; lia. }
  split; [|split].
  - apply Forall_app; split.
    + unfold error_prefix. vm_compute. repeat constructor; discriminate.
    + apply Forall_app; split; [exact Hd | repeat constructor; lia].
  - rewrite app_assoc. apply last_last.
  - rewrite !length_app. unfold hex_min, hex2.
    destruct (b <? 16); reflexivity.
Qed.

Lemma SendErrorCode_text_is_ascii_sample :
  Int.is_uint8 10 /\
  exists text : list Z,
    emits (SendErrorCode 10) ([0] ++ text ++ [0]) /\
    Forall (fun c => 10 <= c < 128) text /\
    last text 0 = 10 /\
    length text = 13%nat.
Proof.
  assert (H : Int.is_uint8 10) by (unfold Int.is_uint8; lia).
  split; [exact H|].
  apply (SendErrorCode_text_is_ascii 10 H).
Defined.

(** [SendLine(args...)] writes what [Send(args..., "\n")] writes, and
    leaves the same world. *)
Theorem SendLine_is_Send_LF :
  forall (t : Arg) (rest : list Arg) (fuel : nat) (w : World),
    SendLine t rest fuel w = Send t (rest ++ [mkArg LF]) fuel w.
Proof.
  intros t rest fuel w.
  rewrite (emits_SendLine t rest fuel w), (emits_Send t _ fuel w).
  f_equal. f_equal. unfold Message_frame.
  change (t :: rest ++ [mkArg LF]) with ((t :: rest) ++ [mkArg LF]).
  rewrite map_app, concat_app. cbn [map concat].
  change (text_of (mkArg LF)) with [10].
  rewrite <- !app_assoc. reflexivity.
Qed.

Lemma c_str_no_NUL : forall bs, Forall (fun c => c <> 0) (c_str bs).
Proof.
  induction bs as [|b bs IH]; cbn [c_str]; [constructor|].
  destruct (Z.eqb_spec b 0); [constructor | now constructor].
Qed.

Lemma printNumber_loop_decimal : forall fuel n str,
  Forall (fun c => c <> 0) str ->
  Forall (fun c => c <> 0) (printNumber_loop fuel n 10 str).
Proof.
  induction fuel as [|fuel IH]; intros n str Hstr; [exact Hstr|].
  rewrite printNumber_loop_step.
  pose proof (Z.mod_pos_bound n 10 ltac:(lia)) as Hc.
  assert (Hs : Forall (fun c => c <> 0)
                 ((if n mod 10 <? 10 then n mod 10 + 48 else n mod 10 + 65 - 10)
                  :: str)).
  { constructor; [|exact Hstr]. destruct (n mod 10 <? 10); lia. }
  destruct (n / 10 =? 0); [exact Hs | now apply IH].
Qed.

Lemma printNumber_decimal_no_NUL : forall n,
  Forall (fun c => c <> 0) (printNumber n 10).
Proof.
  intros n. unfold printNumber. change (10 <? 2) with false. cbv iota.
  apply printNumber_loop_decimal. constructor.
Qed.

Lemma text_of_literal_no_NUL : forall l,
  Forall (fun c => c <> 0) (text_of (arg_of_literal l)).
Proof.
  intros [s|n|n].
  - change (text_of (arg_of_literal (LitStr s)))
      with (c_str (bytes_of_string s)).
    apply c_str_no_NUL.
  - change (text_of (arg_of_literal (LitLong n))) with (print_signed n DEC).
    unfold print_signed, DEC.
    change (10 =? 0) with false. change (10 =? 10) with true. cbv iota.
    destruct (n <? 0).
    + constructor; [discriminate | apply printNumber_decimal_no_NUL].
    + apply printNumber_decimal_no_NUL.
  - change (text_of (arg_of_literal (LitULong n))) with (print_unsigned n DEC).
    unfold print_unsigned, DEC. change (10 =? 0) with false. cbv iota.
    apply printNumber_decimal_no_NUL.
Qed.

(** A message made of C strings and decimal integers is well delimited:
    its text holds no zero byte, so the first zero after the tag byte is the
    terminator, for [Send] and for [SendLine]. *)
Theorem Send_text_has_no_NUL : forall (l : Literal) (ls : list Literal),
  let text := concat (map text_of (map arg_of_literal (l :: ls))) in
  emits (Send (arg_of_literal l) (map arg_of_literal ls))
        ([0] ++ text ++ [0]) /\
  emits (SendLine (arg_of_literal l) (map arg_of_literal ls))
        ([0] ++ (text ++ [10]) ++ [0]) /\
  Forall (fun c => c <> 0) (text ++ [10]).
Proof.
  intros l ls text. subst text. split; [|split].
  - apply emits_Send.
  - eapply emits_eq; [apply emits_SendLine|].
    unfold Message_frame. cbn [map]. rewrite <- !app_assoc. reflexivity.
  - apply Forall_app; split; [|repeat constructor; discriminate].
    apply Forall_concat. apply Forall_map. apply Forall_map.
    apply Forall_forall. intros x _. apply text_of_literal_no_NUL.
Qed.

(** ** One sample: the record is filled from the sensor and sent *)

Lemma le_bytes_be16 : forall hi lo,
  Int.is_uint8 hi -> Int.is_uint8 lo ->
  le_bytes 2 (be16_signed hi lo) = [lo; hi].
Proof.
  intros hi lo Hhi Hlo. unfold Int.is_uint8 in *.
  unfold be16_signed. cbn [le_bytes].
  destruct (256 * hi + lo <? 32768).
  - assert (E1 : (256 * hi + lo) mod 256 = lo)
      by (symmetry; apply (Z.mod_unique _ _ hi); lia).
    assert (E2 : (256 * hi + lo) / 256 = hi)
      by (symmetry; apply (Z.div_unique _ _ _ lo); lia).
    rewrite E1, E2, Z.mod_small by lia. reflexivity.
  - assert (E1 : (256 * hi + lo - 65536) mod 256 = lo)
      by (symmetry; apply (Z.mod_unique _ _ (hi - 256)); lia).
    assert (E2 : (256 * hi + lo - 65536) / 256 = hi - 256)
      by (symmetry; apply (Z.div_unique _ _ _ lo); lia).
    rewrite E1, E2.
    assert (E3 : (hi - 256) mod 256 = hi)
      by (symmetry; apply (Z.mod_unique _ _ (-1)); lia).
    rewrite E3. reflexivity.
Qed.

Lemma FillDataMPU6050_world : forall dat fuel w,
  exists dat' : Data,
    FillDataMPU6050 dat fuel w =
      Done dat' (mkWorld (serial_tx w) [] (bus_log w ++ burst_events)
                   (S (wire_reqs w)) (wire_dev w)).
Proof.
  intros dat fuel [tx rx0 lg rq dev].
  cbv beta iota zeta delta [FillDataMPU6050 read_int16 bind ret
    Wire_beginTransmission Wire_write Wire_endTransmission Wire_requestFrom
    log_event serial_tx wire_rx bus_log wire_reqs wire_dev].
  assert (Hend : skipn 14 (firstn 14 (dev rq)) = []).
  { apply skipn_all2. rewrite length_firstn. apply Nat.le_min_l. }
  revert Hend. generalize (firstn 14 (dev rq)) as rx. intros rx Hend.
  repeat (rewrite Wire_read_any; cbv beta iota).
  rewrite !skipn_skipn. cbn [Nat.add]. rewrite Hend.
  rewrite <- !app_assoc. eexists. reflexivity.
Qed.

(** Filling a record and sending it always puts exactly one DataElement
    frame of 21 bytes on the transport, also when the bus delivered nothing
    or garbage: a failed read never shortens or lengthens the stream. *)
Theorem fill_then_send_one_frame : forall (dat : Data) (fuel : nat) (w : World),
  exists dat' : Data,
    bind (FillDataMPU6050 dat) SendData fuel w =
      Done tt (mkWorld (serial_tx w ++ DataElement_frame (bytes_of_Data dat'))
                 [] (bus_log w ++ burst_events)
                 (S (wire_reqs w)) (wire_dev w)) /\
    length (emitted (bind (FillDataMPU6050 dat) SendData) fuel w) = 21%nat /\
    hd 0 (emitted (bind (FillDataMPU6050 dat) SendData) fuel w) = 2.
Proof.
  intros dat fuel w.
  destruct (FillDataMPU6050_world dat fuel w) as (dat' & Hfill).
  exists dat'.
  assert (Hrun : bind (FillDataMPU6050 dat) SendData fuel w =
            Done tt (mkWorld (serial_tx w ++ DataElement_frame (bytes_of_Data dat'))
                       [] (bus_log w ++ burst_events)
                       (S (wire_reqs w)) (wire_dev w))).
  { unfold bind. rewrite Hfill. now rewrite (emits_SendData dat'). }
  split; [exact Hrun|].
  unfold emitted. rewrite Hrun. cbn [world_of serial_tx].
  rewrite skipn_app, skipn_all, Nat.sub_diag. cbn [skipn app].
  unfold DataElement_frame. cbn [length hd].
  now rewrite bytes_of_Data_length.
Qed.

(** With a full answer of 14 bytes, the frame sent after a fill carries the
    timestamp, analog and button bytes of the record unchanged and then the
    sensor's bytes with each pair swapped to low byte first; the two
    temperature bytes are not sent. *)
Theorem fill_then_send_bytes :
  forall (dat : Data) (fuel : nat) (w : World)
         (ax_h ax_l ay_h ay_l az_h az_l t_h t_l gx_h gx_l gy_h gy_l gz_h gz_l : Z),
    wire_dev w (wire_reqs w) =
      [ax_h; ax_l; ay_h; ay_l; az_h; az_l; t_h; t_l;
       gx_h; gx_l; gy_h; gy_l; gz_h; gz_l] ->
    Forall Int.is_uint8
      [ax_h; ax_l; ay_h; ay_l; az_h; az_l; t_h; t_l;
       gx_h; gx_l; gy_h; gy_l; gz_h; gz_l] ->
    emitted (bind (FillDataMPU6050 dat) SendData) fuel w =
      [2] ++ le_bytes 4 (micros dat) ++ le_bytes 2 (analog dat) ++
      le_bytes 1 (btn_0 dat) ++ le_bytes 1 (btn_1 dat) ++
      [ax_l; ax_h; ay_l; ay_h; az_l; az_h; gx_l; gx_h; gy_l; gy_h; gz_l; gz_h].
Proof.
  intros dat fuel w ax_h ax_l ay_h ay_l az_h az_l t_h t_l
         gx_h gx_l gy_h gy_l gz_h gz_l Hdev Hbytes.
  unfold emitted, bind.
  rewrite FillDataMPU6050_run by (rewrite Hdev; exact Hbytes).
  cbv zeta. rewrite Hdev. cbn [firstn].
  unfold pair_value. cbn [nth_error].
  rewrite (emits_SendData _). cbn [world_of emit serial_tx].
  rewrite skipn_app, skipn_all, Nat.sub_diag. cbn [skipn app].
  unfold DataElement_frame, bytes_of_Data.
  cbn [micros analog btn_0 btn_1 lin_acc_x lin_acc_y lin_acc_z
       rot_vel_x rot_vel_y rot_vel_z].
  repeat match goal with
         | H : Forall _ (_ :: _) |- _ => inversion H; subst; clear H
         end.
  rewrite !le_bytes_be16 by assumption.
  reflexivity.
Qed.

Lemma fill_then_send_bytes_sample :
  emitted (bind (FillDataMPU6050 sample_record) SendData) 0
    (mkWorld [] [] [] 0
       (fun _ => [0; 100; 255; 56; 1; 44; 13; 128; 255; 206; 0; 0; 0; 50])) =
  [2; 64; 226; 1; 0; 0; 2; 1; 0;
   100; 0; 56; 255; 44; 1; 206; 255; 0; 0; 50; 0].
Proof.
  apply (fill_then_send_bytes sample_record 0%nat
           (mkWorld [] [] [] 0
              (fun _ => [0; 100; 255; 56; 1; 44; 13; 128; 255; 206; 0; 0; 0; 50]))
           0 100 255 56 1 44 13 128 255 206 0 0 0 50).
  - reflexivity.
  - repeat constructor; unfold Int.is_uint8; lia.
Defined.
